(** * hexbin_utilities: the statistics kernel and hexagon sizing

    A shallow embedding of [src/hexbin_generator/hexbin_utilities.py].

    The module runs on the Python 3 interpreter shipped with the GIS engine,
    so [/] is true division (its result is always a float), [math.floor] and
    [int] return an [int], and a list may only be indexed by an [int].
    Python numbers are therefore modelled as a tagged union of [int] (as [Z])
    and [float].  Floats are idealised as real numbers: rounding, overflow,
    infinities and NaN are outside the model, and [math.fsum] is the exact
    sum.  Exceptions are modelled by an error monad.  The functions that
    drive the GIS engine are programs over its calls, run against an
    arbitrary responder. *)

From Stdlib Require Import String.
From Stdlib Require Import Reals Lra Lia ZArith List Bool Sorted Permutation.
Import ListNotations.

Local Open Scope Z_scope.
Local Open Scope R_scope.

(** ** The exception monad *)

Inductive exn : Type :=
| IndexError
| TypeError
| ZeroDivisionError
| ValueError.

Inductive result (A : Type) : Type :=
| Ok (a : A)
| Raise (e : exn).

Arguments Ok {A} a.
Arguments Raise {A} e.

Definition bind {A B : Type} (m : result A) (k : A -> result B) : result B :=
  match m with
  | Ok a => k a
  | Raise e => Raise e
  end.

Notation "x <- m ;; k" := (bind m (fun x => k))
  (at level 61, m at next level, right associativity).

Definition returns {A : Type} (m : result A) : Prop := exists a, m = Ok a.

(** ** Python numbers *)

Inductive num : Type :=
| PyInt (z : Z)
| PyFloat (r : R).

Definition to_real (x : num) : R :=
  match x with
  | PyInt z => IZR z
  | PyFloat r => r
  end.

(** Binary arithmetic: [int op int] is an [int], anything else a [float]. *)
Definition py_add (x y : num) : num :=
  match x, y with
  | PyInt a, PyInt b => PyInt (a + b)
  | _, _ => PyFloat (to_real x + to_real y)
  end.

Definition py_sub (x y : num) : num :=
  match x, y with
  | PyInt a, PyInt b => PyInt (a - b)
  | _, _ => PyFloat (to_real x - to_real y)
  end.

Definition py_mul (x y : num) : num :=
  match x, y with
  | PyInt a, PyInt b => PyInt (a * b)
  | _, _ => PyFloat (to_real x * to_real y)
  end.

(** [x / y]: true division, a [float] even for two [int]s. *)
Definition py_truediv (x y : num) : result num :=
  if Req_dec_T (to_real y) 0 then Raise ZeroDivisionError
  else Ok (PyFloat (to_real x / to_real y)).

(** [x % y]: the result takes the sign of the divisor. *)
Definition py_mod (x y : num) : result num :=
  if Req_dec_T (to_real y) 0 then Raise ZeroDivisionError
  else match x, y with
       | PyInt a, PyInt b => Ok (PyInt (a mod b))
       | _, _ => Ok (PyFloat (to_real x
                              - to_real y * IZR (Int_part (to_real x / to_real y))))
       end.

(** Comparisons are numeric, across [int] and [float]. *)
Definition py_eq (x y : num) : bool :=
  if Req_dec_T (to_real x) (to_real y) then true else false.

Definition py_lt (x y : num) : bool :=
  if Rlt_dec (to_real x) (to_real y) then true else false.

Definition py_gt (x y : num) : bool := py_lt y x.

(** [math.floor]: an [int]. *)
Definition math_floor (x : num) : num :=
  match x with
  | PyInt z => PyInt z
  | PyFloat r => PyInt (Int_part r)
  end.

(** [int(x)]: truncation towards zero. *)
Definition py_int (x : num) : num :=
  match x with
  | PyInt z => PyInt z
  | PyFloat r => if Rle_dec 0 r then PyInt (Int_part r)
                 else PyInt (- Int_part (- r))
  end.

(** [math.sqrt]. *)
Definition math_sqrt (x : num) : result num :=
  if Rlt_dec (to_real x) 0 then Raise ValueError
  else Ok (PyFloat (sqrt (to_real x))).

(** [math.pow]: an integral exponent is defined on every base but [0] with a
    negative exponent; any other exponent needs a non-negative base. *)
Definition math_pow (x y : num) : result num :=
  let a := to_real x in
  let b := to_real y in
  let n := Int_part b in
  if Req_dec_T b (IZR n) then
    if Req_dec_T a 0 then
      (if (n <? 0)%Z then Raise ValueError else Ok (PyFloat (powerRZ a n)))
    else Ok (PyFloat (powerRZ a n))
  else if Rlt_dec 0 a then Ok (PyFloat (Rpower a b))
  else if Req_dec_T a 0 then
    (if Rlt_dec 0 b then Ok (PyFloat 0) else Raise ValueError)
  else Raise ValueError.

(** [math.fsum]: the sum of the values, as a [float]. *)
Definition sum_values (l : list num) : R :=
  fold_right (fun v acc => to_real v + acc) 0 l.

Definition math_fsum (l : list num) : num := PyFloat (sum_values l).

(** ** Python lists *)

Definition py_len (l : list num) : num := PyInt (Z.of_nat (length l)).

(** [l[i]]: a [float] index is a type error whatever its value; a negative
    [int] counts from the end; anything outside the list is an index error. *)
Definition py_getitem (l : list num) (i : num) : result num :=
  match i with
  | PyFloat _ => Raise TypeError
  | PyInt z =>
      let n := Z.of_nat (length l) in
      let j := if (z <? 0)%Z then (z + n)%Z else z in
      if (j <? 0)%Z then Raise IndexError
      else match nth_error l (Z.to_nat j) with
           | Some v => Ok v
           | None => Raise IndexError
           end
  end.

(** [list.sort()]: a stable ascending sort that compares with [<] only. *)
Fixpoint sort_insert (x : num) (l : list num) : list num :=
  match l with
  | [] => [x]
  | y :: t => if py_lt y x then y :: sort_insert x t else x :: y :: t
  end.

Definition py_sort (l : list num) : list num :=
  fold_right sort_insert [] l.

(** ** The feature source

    A search cursor over the ['SHAPE@'] field yields one geometry per
    feature; only the height and width of its extent are read. *)

Record Extent : Type := { height : R; width : R }.
Record Geometry : Type := { extent : Extent }.
Definition FeatureClass : Type := list Geometry.

(** ** The source functions *)

Definition get_extent_length_height_list_sorted
  (polygon_feature_class : FeatureClass) : list num :=
  let size_list :=
    fold_left
      (fun size_list feature =>
         (size_list ++ [PyFloat (height (extent feature))])
           ++ [PyFloat (width (extent feature))])
      polygon_feature_class [] in
  py_sort size_list.

Definition get_mean (value_list : list num) : result num :=
  let value_count := py_len value_list in
  py_truediv (math_fsum value_list) value_count.

Definition get_median (value_list : list num) : result num :=
  let value_count := py_len value_list in
  r <- py_mod value_count (PyInt 2) ;;
  if py_eq r (PyInt 0) then
    median_index <- py_truediv value_count (PyInt 2) ;;
    py_getitem value_list (py_sub median_index (PyInt 1))
  else
    median_index <- py_truediv (py_add value_count (PyInt 1)) (PyInt 2) ;;
    a <- py_getitem value_list (py_sub median_index (PyInt 1)) ;;
    b <- py_getitem value_list median_index ;;
    py_truediv (py_add a b) (PyInt 2).

Definition get_lower_upper_quartile (value_list : list num)
  : result (num * num) :=
  let value_count := py_len value_list in
  c4 <- py_truediv value_count (PyInt 4) ;;
  f <- py_truediv (PyInt 5) (PyInt 12) ;;
  let q1_index := math_floor (py_add c4 f) in
  c4' <- py_truediv value_count (PyInt 4) ;;
  f' <- py_truediv (PyInt 5) (PyInt 12) ;;
  let h := py_sub (py_add c4' f') q1_index in
  a <- py_getitem value_list (py_sub q1_index (PyInt 1)) ;;
  b <- py_getitem value_list q1_index ;;
  let q1 := py_add (py_mul (py_sub (PyInt 1) h) a) (py_mul h b) in
  let k := py_int (py_add (py_sub value_count q1_index) (PyInt 1)) in
  c <- py_getitem value_list (py_add k (PyInt 1)) ;;
  d <- py_getitem value_list k ;;
  let q2 := py_add (py_mul (py_sub (PyInt 1) h) c) (py_mul h d) in
  Ok (q1, q2).

Definition winsorize_value (X : num) (quartile_values : num * num) : num :=
  if py_lt X (fst quartile_values) then fst quartile_values
  else if py_gt X (snd quartile_values) then snd quartile_values
  else X.

Definition get_winsorized_list (X : list num) : result (list num) :=
  quartile_values <- get_lower_upper_quartile X ;;
  Ok (map (fun value => winsorize_value value quartile_values) X).

Definition get_hex_area_from_short_diagonal (short_diagonal : num)
  : result num :=
  s <- math_sqrt (PyInt 3) ;;
  s' <- math_sqrt (PyInt 3) ;;
  q <- py_truediv short_diagonal s' ;;
  p <- math_pow q (PyInt 2) ;;
  Ok (py_mul (py_mul (PyFloat 1.5) s) p).

Definition get_hex_area (block_group_feature_class : FeatureClass)
  : result num :=
  w <- get_winsorized_list
         (get_extent_length_height_list_sorted block_group_feature_class) ;;
  m <- get_mean w ;;
  get_hex_area_from_short_diagonal m.

(** ** Code outside this module

    The remaining functions compute nothing themselves: they call the GIS
    engine ([arcpy]), the helper [get_usa_data_path] of a sibling module and
    [os.path.join], and pass the results on.  A call may return a value or
    raise; nothing else is assumed about it.  The functions are therefore
    programs over these calls, run against an arbitrary responder that sees
    the whole history of the run. *)

Module External.

(** What is passed around: strings (paths, names) and opaque objects of the
    engine (layers, result objects, describe objects, extents, spatial
    references). *)
Inductive obj : Type :=
| Str (s : string)
| Ref (id : nat).

(** The calls, with the source's parameter names.  [getattr] is an
    attribute read on an engine object and [getitem] is [o[index]]. *)
Inductive call : Type -> Type :=
| Describe (value : obj) : call obj
| getattr (o : obj) (name : string) : call obj
| getitem (o : obj) (index : Z) : call obj
| SearchCursor (in_table : obj) (field_names : string) : call FeatureClass
| GenerateTessellation_management
    (Output_Feature_Class Extent : obj) (Shape_Type : string)
    (Size : num) (Spatial_Reference : obj) : call obj
| MakeFeatureLayer_management (in_features : obj) (out_layer : string)
  : call obj
| SelectLayerByLocation_management
    (in_layer : obj) (overlap_type : string) (select_features : obj)
    (selection_type : string) (invert_spatial_relationship : option string)
  : call obj
| DeleteFeatures_management (in_features : obj) : call obj
| get_usa_data_path : call obj
| os_path_join (a : obj) (p : string) : call obj.

(** One entry of the history: a call and what came back ([None]: the call
    raised). *)
Inductive event : Type :=
| Event {T : Type} (c : call T) (response : option T).

(** Programs: return, raise a Python exception, or make a call and go on
    with its result. *)
Inductive prog (A : Type) : Type :=
| Return (a : A)
| Throw (e : exn)
| Invoke {T : Type} (c : call T) (k : T -> prog A).

Arguments Return {A} a.
Arguments Throw {A} e.
Arguments Invoke {A T} c k.

Fixpoint pbind {A B : Type} (m : prog A) (k : A -> prog B) : prog B :=
  match m with
  | Return a => k a
  | Throw e => Throw e
  | Invoke c k' => Invoke c (fun t => pbind (k' t) k)
  end.

Definition invoke {T : Type} (c : call T) : prog T := Invoke c Return.

Definition lift {A : Type} (r : result A) : prog A :=
  match r with
  | Ok a => Return a
  | Raise e => Throw e
  end.

(** How a run ends. *)
Inductive outcome (A : Type) : Type :=
| Returned (a : A)
| Raised (e : exn)
| ExternalRaised.

Arguments Returned {A} a.
Arguments Raised {A} e.
Arguments ExternalRaised {A}.

Definition responder : Type := forall T : Type, list event -> call T -> option T.

(** Running a program: every call is answered by the responder and logged;
    a call that raises ends the run. *)
Fixpoint run {A : Type} (env : responder) (p : prog A) (log : list event)
  : outcome A * list event :=
  match p with
  | Return a => (Returned a, log)
  | Throw e => (Raised e, log)
  | Invoke c k =>
      match env _ log c with
      | Some t => run env (k t) (log ++ [Event c (Some t)])
      | None => (ExternalRaised, log ++ [Event c None])
      end
  end.

(** The rows every cursor of the history delivered. *)
Definition rows_of (e : event) : list FeatureClass :=
  match e with
  | Event c r =>
      match c in call T return option T -> list FeatureClass with
      | SearchCursor _ _ => fun r => match r with Some rows => [rows] | None => [] end
      | _ => fun _ => []
      end r
  end.

Definition rows_read (log : list event) : list FeatureClass :=
  flat_map rows_of log.

(** Whether a call creates or deletes features. *)
Definition writes (e : event) : bool :=
  match e with
  | Event c _ =>
      match c with
      | GenerateTessellation_management _ _ _ _ _ => true
      | DeleteFeatures_management _ => true
      | _ => false
      end
  end.

End External.

Import External.

Notation "x <~ m ;; k" := (pbind m (fun x => k))
  (at level 61, m at next level, right associativity).

(** [get_hex_area] on a feature class of the engine: the cursor of
    [get_extent_length_height_list_sorted] delivers the rows, the rest is
    the computation on them. *)
Definition get_hex_area_via_cursor (block_group_feature_class : obj)
  : prog num :=
  rows <~ invoke (SearchCursor block_group_feature_class "SHAPE@") ;;
  lift (get_hex_area rows).

Definition get_hexbins_full_extent
  (block_groups output_hexbin_feature_class : obj) : prog obj :=
  describe <~ invoke (Describe block_groups) ;;
  Extent <~ invoke (getattr describe "extent") ;;
  Size <~ get_hex_area_via_cursor block_groups ;;
  Spatial_Reference <~ invoke (getattr describe "spatialReference") ;;
  tessellation <~ invoke (GenerateTessellation_management
                            output_hexbin_feature_class Extent "HEXAGON"
                            Size Spatial_Reference) ;;
  invoke (getitem tessellation 0).

Definition get_hexbins_from_block_groups
  (block_groups output_hexbin_feature_class : obj) : prog obj :=
  block_group_layer <~ invoke (MakeFeatureLayer_management
                                 block_groups "block_group_layer") ;;
  hexbins <~ get_hexbins_full_extent block_groups output_hexbin_feature_class ;;
  hexbin_layer <~ invoke (MakeFeatureLayer_management hexbins "hexbins_layer") ;;
  _ <~ invoke (SelectLayerByLocation_management
                 hexbin_layer "INTERSECT" block_group_layer "NEW_SELECTION"
                 (Some "INVERT"%string)) ;;
  _ <~ invoke (DeleteFeatures_management hexbin_layer) ;;
  Return output_hexbin_feature_class.

Definition get_hexbins_by_cbsa
  (layer_with_cbsa_selected output_hexbin_feature_class : obj) : prog obj :=
  usa_data_path <~ invoke get_usa_data_path ;;
  block_group_feature_class <~
    invoke (os_path_join usa_data_path "Data\Demographic Data\esri_bg.bds") ;;
  block_group_layer <~ invoke (MakeFeatureLayer_management
                                 block_group_feature_class "block_group_lyr") ;;
  _ <~ invoke (SelectLayerByLocation_management
                 block_group_layer "INTERSECT" layer_with_cbsa_selected
                 "NEW_SELECTION" None) ;;
  get_hexbins_from_block_groups block_group_layer output_hexbin_feature_class.

(** Whether a call deletes features. *)
Definition deletes (e : event) : bool :=
  match e with
  | Event c _ =>
      match c with
      | DeleteFeatures_management _ => true
      | _ => false
      end
  end.

(** A responder for worked runs: every call succeeds and every cursor
    delivers the given rows. *)
Definition answering (rows : FeatureClass) : responder :=
  fun T _ c =>
    match c in call T return option T with
    | Describe _ => Some (Ref 1)
    | getattr _ _ => Some (Ref 2)
    | getitem _ _ => Some (Str "hexbins")
    | SearchCursor _ _ => Some rows
    | GenerateTessellation_management _ _ _ _ _ => Some (Ref 3)
    | MakeFeatureLayer_management _ _ => Some (Ref 4)
    | SelectLayerByLocation_management _ _ _ _ _ => Some (Ref 5)
    | DeleteFeatures_management _ => Some (Ref 6)
    | get_usa_data_path => Some (Str "usa")
    | os_path_join _ _ => Some (Str "usa\Data\Demographic Data\esri_bg.bds")
    end.

(** ** Vocabulary for the statements

    The index expressions of [get_lower_upper_quartile] at list length [n],
    in integer arithmetic: [q1_index = floor(n/4 + 5/12)],
    [k = n - q1_index + 1], the weight [h], and the interpolation
    [(1 - h) * x + h * y] that both quartiles use. *)
Definition q1_index_at (n : Z) : Z := ((3 * n + 5) / 12)%Z.
Definition k_at (n : Z) : Z := (n - q1_index_at n + 1)%Z.
Definition h_at (n : Z) : num :=
  PyFloat (IZR n / 4 + 5 / 12 - IZR (q1_index_at n)).

Definition interpolate (h x y : num) : num :=
  py_add (py_mul (py_sub (PyInt 1) h) x) (py_mul h y).

(** The area of the regular hexagon of short diagonal [d]. *)
Definition hex_area_formula (d : R) : R := 1.5 * sqrt 3 * (d / sqrt 3) ^ 2.

(** Ascending order on Python numbers. *)
Definition num_le (x y : num) : Prop := to_real x <= to_real y.

(** The height, then the width, of every feature in iteration order. *)
Definition extent_dimensions (fc : FeatureClass) : list num :=
  flat_map
    (fun g => [PyFloat (height (extent g)); PyFloat (width (extent g))]) fc.

(** Every value clamped with one fixed pair of bounds. *)
Definition winsorized_with (q : num * num) (l : list num) : list num :=
  map (fun value => winsorize_value value q) l.

(** [value_list[z]] for an index [z] known to lie inside the list. *)
Definition item (l : list num) (z : Z) : num := nth (Z.to_nat z) l (PyInt 0).

(** A value is within a pair of bounds. *)
Definition within (q : num * num) (v : num) : Prop :=
  to_real (fst q) <= to_real v <= to_real (snd q).


(** A list long enough for the quartile estimator. *)
Definition one_to_twelve : list num :=
  [PyInt 1; PyInt 2; PyInt 3; PyInt 4; PyInt 5; PyInt 6;
   PyInt 7; PyInt 8; PyInt 9; PyInt 10; PyInt 11; PyInt 12].

(** Six features of height and width [2]. *)
Definition six_squares : FeatureClass :=
  repeat {| extent := {| height := 2; width := 2 |} |} 6.

(** ** Facts about the Python runtime model *)

Lemma bind_Ok {A B : Type} (a : A) (k : A -> result B) :
  bind (Ok a) k = k a.
Proof. reflexivity. Qed.

Lemma bind_Raise {A B : Type} (e : exn) (k : A -> result B) :
  bind (Raise e) k = Raise e.
Proof. reflexivity. Qed.

Lemma py_truediv_nonzero (x y : num) :
  to_real y <> 0 ->
  py_truediv x y = Ok (PyFloat (to_real x / to_real y)).
Proof.
  intros Hy. unfold py_truediv.
  destruct (Req_dec_T (to_real y) 0) as [E | _]; [contradiction | reflexivity].
Qed.


(** True division never produces an [int]. *)
Lemma py_truediv_float (x y v : num) :
  py_truediv x y = Ok v -> exists r, v = PyFloat r.
Proof.
  unfold py_truediv. destruct (Req_dec_T (to_real y) 0); intros H.
  - discriminate.
  - injection H as <-. eauto.
Qed.

Lemma py_sub_float_l (r : R) (y : num) :
  py_sub (PyFloat r) y = PyFloat (r - to_real y).
Proof. destruct y; reflexivity. Qed.

Lemma py_getitem_float (l : list num) (r : R) :
  py_getitem l (PyFloat r) = Raise TypeError.
Proof. reflexivity. Qed.

Lemma py_getitem_nth (l : list num) (z : Z) :
  (0 <= z < Z.of_nat (length l))%Z ->
  py_getitem l (PyInt z) = Ok (nth (Z.to_nat z) l (PyInt 0)).
Proof.
  intros [H0 Hn]. unfold py_getitem.
  destruct (Z.ltb_spec z 0) as [Hz | _]; [lia |].
  destruct (Z.ltb_spec z 0) as [Hz | _]; [lia |].
  assert (Hlt : (Z.to_nat z < length l)%nat) by lia.
  rewrite (nth_error_nth' l (PyInt 0) Hlt). reflexivity.
Qed.

Lemma py_getitem_past_end (l : list num) (z : Z) :
  (Z.of_nat (length l) <= z)%Z ->
  py_getitem l (PyInt z) = Raise IndexError.
Proof.
  intros Hn. unfold py_getitem.
  destruct (Z.ltb_spec z 0) as [Hz | _]; [lia |].
  destruct (Z.ltb_spec z 0) as [Hz | _]; [lia |].
  assert (Hge : (length l <= Z.to_nat z)%nat) by lia.
  apply nth_error_None in Hge. rewrite Hge. reflexivity.
Qed.

(** A negative index counts from the end of the list. *)
Lemma py_getitem_negative (l : list num) (z : Z) :
  (z < 0)%Z ->
  py_getitem l (PyInt z) =
  if (z + Z.of_nat (length l) <? 0)%Z then Raise IndexError
  else py_getitem l (PyInt (z + Z.of_nat (length l))).
Proof.
  intros Hz. unfold py_getitem.
  destruct (Z.ltb_spec z 0) as [_ | H]; [| lia].
  destruct (Z.ltb_spec (z + Z.of_nat (length l)) 0) as [H | H]; [reflexivity |].
  destruct (Z.ltb_spec (z + Z.of_nat (length l)) 0) as [H' | _]; [lia |].
  reflexivity.
Qed.

(** [floor(n/4 + 5/12)] in integer arithmetic. *)
Lemma floor_quarter (n : Z) :
  Int_part (IZR n / 4 + 5 / 12) = ((3 * n + 5) / 12)%Z.
Proof.
  symmetry. apply Int_part_spec.
  pose proof (Z.div_mod (3 * n + 5) 12 ltac:(lia)) as Hdm.
  pose proof (Z.mod_pos_bound (3 * n + 5) 12 ltac:(lia)) as [Hlo Hhi].
  set (q := ((3 * n + 5) / 12)%Z) in *.
  set (r := ((3 * n + 5) mod 12)%Z) in *.
  apply (f_equal IZR) in Hdm.
  rewrite !plus_IZR, !mult_IZR in Hdm.
  apply IZR_le in Hlo. apply IZR_lt in Hhi.
  split; lra.
Qed.

Lemma py_mod_len_2 (l : list num) :
  py_mod (py_len l) (PyInt 2) = Ok (PyInt (Z.of_nat (length l) mod 2)).
Proof.
  unfold py_mod, py_len. cbn [to_real].
  destruct (Req_dec_T 2 0) as [E | _]; [lra | reflexivity].
Qed.

(** ** The quartile estimator, index by index *)

Lemma get_lower_upper_quartile_reads (l : list num) :
  let n := Z.of_nat (length l) in
  get_lower_upper_quartile l =
  (a <- py_getitem l (PyInt (q1_index_at n - 1)) ;;
   b <- py_getitem l (PyInt (q1_index_at n)) ;;
   c <- py_getitem l (PyInt (k_at n + 1)) ;;
   d <- py_getitem l (PyInt (k_at n)) ;;
   Ok (interpolate (h_at n) a b, interpolate (h_at n) c d)).
Proof.
  intros n. unfold get_lower_upper_quartile.
  rewrite !py_truediv_nonzero by (cbn [to_real]; lra).
  cbn [bind py_len to_real py_add math_floor]. fold n.
  rewrite floor_quarter. fold (q1_index_at n).
  cbn [py_sub py_add py_int to_real]. reflexivity.
Qed.

Lemma q1_index_at_floor (n : Z) :
  q1_index_at n = Int_part (IZR n / 4 + 5 / 12).
Proof. unfold q1_index_at. symmetry. apply floor_quarter. Qed.

(** Up to ten values the read of [value_list[k + 1]] is past the end.  The
    two reads for the lower quartile come first; they fail only on the empty
    list, where index [-1] does not exist. *)
Lemma quartile_upper_read_past_end (l : list num) :
  (length l <= 10)%nat ->
  (Z.of_nat (length l) <= k_at (Z.of_nat (length l)) + 1)%Z.
Proof.
  intros H. unfold k_at, q1_index_at. Z.div_mod_to_equations. lia.
Qed.

Lemma quartile_short_list (l : list num) :
  (length l <= 10)%nat ->
  get_lower_upper_quartile l = Raise IndexError.
Proof.
  intros H. rewrite get_lower_upper_quartile_reads.
  pose proof (quartile_upper_read_past_end l H) as Hk.
  set (n := Z.of_nat (length l)) in *.
  destruct (Z.eq_dec n 0) as [E0 | N0].
  - rewrite py_getitem_negative by (rewrite E0; reflexivity).
    fold n. rewrite E0. reflexivity.
  - assert (Hb : py_getitem l (PyInt (q1_index_at n)) =
                 Ok (nth (Z.to_nat (q1_index_at n)) l (PyInt 0))).
    { apply py_getitem_nth. fold n. unfold q1_index_at.
      Z.div_mod_to_equations. lia. }
    assert (Ha : exists a, py_getitem l (PyInt (q1_index_at n - 1)) = Ok a).
    { destruct (Z.ltb_spec (q1_index_at n - 1) 0) as [Hneg | Hpos].
      - rewrite py_getitem_negative by exact Hneg. fold n.
        assert (Hz : (0 <= q1_index_at n - 1 + n < n)%Z).
        { unfold q1_index_at in *. Z.div_mod_to_equations. lia. }
        destruct (Z.ltb_spec (q1_index_at n - 1 + n) 0) as [Hlt | _]; [lia |].
        eexists. apply py_getitem_nth. fold n. exact Hz.
      - eexists. apply py_getitem_nth. fold n. unfold q1_index_at in *.
        Z.div_mod_to_equations. lia. }
    destruct Ha as [a Ha]. rewrite Ha, Hb. cbn [bind].
    rewrite py_getitem_past_end by (fold n; exact Hk). reflexivity.
Qed.

Lemma quartile_long_list (l : list num) :
  (11 <= length l)%nat ->
  let n := Z.of_nat (length l) in
  get_lower_upper_quartile l =
  Ok (interpolate (h_at n)
        (nth (Z.to_nat (q1_index_at n - 1)) l (PyInt 0))
        (nth (Z.to_nat (q1_index_at n)) l (PyInt 0)),
      interpolate (h_at n)
        (nth (Z.to_nat (k_at n + 1)) l (PyInt 0))
        (nth (Z.to_nat (k_at n)) l (PyInt 0))).
Proof.
  intros H n. rewrite get_lower_upper_quartile_reads. fold n.
  assert (Hn : (11 <= n)%Z) by (unfold n; lia).
  rewrite !py_getitem_nth
    by (fold n; unfold k_at, q1_index_at; Z.div_mod_to_equations; lia).
  reflexivity.
Qed.

Lemma quartile_returns_length (l : list num) :
  returns (get_lower_upper_quartile l) -> (11 <= length l)%nat.
Proof.
  intros [p Hp].
  destruct (le_lt_dec (length l) 10) as [Hshort | Hlong]; [| lia].
  rewrite (quartile_short_list l Hshort) in Hp. discriminate.
Qed.

(** ** The median *)

Lemma get_median_type_error (l : list num) :
  get_median l = Raise TypeError.
Proof.
  unfold get_median. rewrite py_mod_len_2. cbn [bind].
  destruct (py_eq _ _).
  - rewrite py_truediv_nonzero by (cbn [to_real]; lra). cbn [bind].
    rewrite py_sub_float_l. reflexivity.
  - rewrite py_truediv_nonzero by (cbn [to_real]; lra). cbn [bind].
    rewrite py_sub_float_l. reflexivity.
Qed.

(** ** The mean *)

Lemma get_mean_nonempty (l : list num) :
  l <> [] ->
  get_mean l = Ok (PyFloat (sum_values l / INR (length l))).
Proof.
  intros Hl. unfold get_mean, py_len, math_fsum.
  assert (Hpos : (0 < length l)%nat) by (destruct l; [contradiction | cbn; lia]).
  rewrite py_truediv_nonzero.
  - cbn [to_real]. rewrite <- INR_IZR_INZ. reflexivity.
  - cbn [to_real]. rewrite <- INR_IZR_INZ. apply not_0_INR. lia.
Qed.


(** ** Hexagon sizing *)

Lemma sqrt3_pos : 0 < sqrt 3.
Proof. apply sqrt_lt_R0. lra. Qed.

Lemma Int_part_IZR (z : Z) : Int_part (IZR z) = z.
Proof. symmetry. apply Int_part_spec. lra. Qed.

Lemma math_sqrt_3 : math_sqrt (PyInt 3) = Ok (PyFloat (sqrt 3)).
Proof.
  unfold math_sqrt. cbn [to_real].
  destruct (Rlt_dec 3 0) as [H | _]; [lra | reflexivity].
Qed.

Lemma math_pow_2 (x : num) :
  math_pow x (PyInt 2) = Ok (PyFloat (to_real x ^ 2)).
Proof.
  unfold math_pow. cbn [to_real]. rewrite Int_part_IZR.
  destruct (Req_dec_T 2 2) as [_ | N]; [| contradiction].
  destruct (Req_dec_T (to_real x) 0); reflexivity.
Qed.

Lemma hex_area_value (d : num) :
  get_hex_area_from_short_diagonal d =
  Ok (PyFloat (hex_area_formula (to_real d))).
Proof.
  unfold get_hex_area_from_short_diagonal. rewrite math_sqrt_3. cbn [bind].
  rewrite py_truediv_nonzero
    by (cbn [to_real]; pose proof sqrt3_pos; lra).
  cbn [bind]. rewrite math_pow_2. reflexivity.
Qed.



(** ** Winsorization of a single value *)

Lemma py_lt_true (x y : num) : to_real x < to_real y -> py_lt x y = true.
Proof.
  intros H. unfold py_lt. destruct (Rlt_dec _ _); [reflexivity | contradiction].
Qed.

Lemma py_lt_false (x y : num) : to_real y <= to_real x -> py_lt x y = false.
Proof.
  intros H. unfold py_lt. destruct (Rlt_dec _ _); [lra | reflexivity].
Qed.

Lemma winsorize_value_cases (x lower upper : num) :
  winsorize_value x (lower, upper) =
  if py_lt x lower then lower else if py_lt upper x then upper else x.
Proof. reflexivity. Qed.

(** ** Sorting and the extent sampler *)

Lemma sort_insert_perm (x : num) (l : list num) :
  Permutation (x :: l) (sort_insert x l).
Proof.
  induction l as [| y t IH]; cbn [sort_insert].
  - apply Permutation_refl.
  - destruct (py_lt y x).
    + eapply perm_trans; [apply perm_swap |]. apply perm_skip. exact IH.
    + apply Permutation_refl.
Qed.

Lemma py_sort_perm (l : list num) : Permutation l (py_sort l).
Proof.
  induction l as [| x t IH]; cbn [py_sort fold_right].
  - apply perm_nil.
  - eapply perm_trans; [| apply sort_insert_perm].
    apply perm_skip. exact IH.
Qed.



Lemma sampler_loop (fc : FeatureClass) (acc : list num) :
  fold_left
    (fun size_list feature =>
       (size_list ++ [PyFloat (height (extent feature))])
         ++ [PyFloat (width (extent feature))])
    fc acc
  = acc ++ extent_dimensions fc.
Proof.
  revert acc. induction fc as [| g fc IH]; intros acc; cbn [fold_left].
  - cbn. rewrite app_nil_r. reflexivity.
  - rewrite IH. cbn [extent_dimensions flat_map].
    rewrite <- !app_assoc. reflexivity.
Qed.

Lemma sampler_sorted_dimensions (fc : FeatureClass) :
  get_extent_length_height_list_sorted fc = py_sort (extent_dimensions fc).
Proof.
  unfold get_extent_length_height_list_sorted. rewrite sampler_loop.
  reflexivity.
Qed.

Lemma extent_dimensions_length (fc : FeatureClass) :
  length (extent_dimensions fc) = (2 * length fc)%nat.
Proof.
  induction fc as [| g fc IH]; cbn [extent_dimensions flat_map length app].
  - reflexivity.
  - fold (extent_dimensions fc). rewrite IH. lia.
Qed.

(** ** The composed pipeline *)

Lemma get_winsorized_list_bounds_once (l : list num) :
  get_winsorized_list l =
  match get_lower_upper_quartile l with
  | Ok q => Ok (winsorized_with q l)
  | Raise e => Raise e
  end.
Proof.
  unfold get_winsorized_list. destruct (get_lower_upper_quartile l); reflexivity.
Qed.

Lemma pipeline_value (l : list num) :
  (w <- get_winsorized_list l ;;
   m <- get_mean w ;;
   get_hex_area_from_short_diagonal m)
  = match get_lower_upper_quartile l with
    | Ok q =>
        Ok (PyFloat (hex_area_formula
                       (sum_values (winsorized_with q l) / INR (length l))))
    | Raise e => Raise e
    end.
Proof.
  rewrite get_winsorized_list_bounds_once.
  destruct (get_lower_upper_quartile l) as [q | e] eqn:Hq; [| reflexivity].
  cbn [bind].
  assert (Hlen : (11 <= length l)%nat)
    by (apply quartile_returns_length; exists q; exact Hq).
  rewrite get_mean_nonempty.
  - cbn [bind]. rewrite hex_area_value. cbn [to_real].
    unfold winsorized_with at 2. rewrite length_map. reflexivity.
  - unfold winsorized_with. destruct l; [cbn in Hlen; lia | discriminate].
Qed.

Lemma sampler_length (fc : FeatureClass) :
  length (get_extent_length_height_list_sorted fc) = (2 * length fc)%nat.
Proof.
  rewrite sampler_sorted_dimensions.
  rewrite <- (Permutation_length (py_sort_perm (extent_dimensions fc))).
  apply extent_dimensions_length.
Qed.

(** The pipeline needs at least six features: five give ten values, which
    the quartile estimator cannot handle. *)
Lemma get_hex_area_feature_threshold (fc : FeatureClass) :
  ((length fc <= 5)%nat -> get_hex_area fc = Raise IndexError) /\
  ((6 <= length fc)%nat -> returns (get_hex_area fc)).
Proof.
  pose proof (sampler_length fc) as Hlen.
  unfold get_hex_area. rewrite pipeline_value. split; intros H.
  - rewrite quartile_short_list by lia. reflexivity.
  - rewrite quartile_long_list by lia. eexists. reflexivity.
Qed.

(** ** Worked examples on twelve values *)

Ltac decide_py_lt :=
  repeat first
    [ rewrite py_lt_true by (cbn [to_real]; lra)
    | rewrite py_lt_false by (cbn [to_real]; lra) ].

Example quartiles_one_to_twelve :
  get_lower_upper_quartile one_to_twelve
  = Ok (PyFloat (41 / 12), PyFloat (139 / 12)).
Proof.
  rewrite quartile_long_list by (cbn [length one_to_twelve]; lia).
  change (Z.of_nat (length one_to_twelve)) with 12%Z.
  change (q1_index_at 12) with 3%Z. change (k_at 12) with 10%Z.
  unfold h_at. change (q1_index_at 12) with 3%Z.
  change (nth (Z.to_nat (3 - 1)) one_to_twelve (PyInt 0)) with (PyInt 3).
  change (nth (Z.to_nat 3) one_to_twelve (PyInt 0)) with (PyInt 4).
  change (nth (Z.to_nat (10 + 1)) one_to_twelve (PyInt 0)) with (PyInt 12).
  change (nth (Z.to_nat 10) one_to_twelve (PyInt 0)) with (PyInt 11).
  unfold interpolate. cbn [py_sub py_mul py_add to_real].
  do 2 f_equal; f_equal; lra.
Qed.

Example winsorized_one_to_twelve :
  get_winsorized_list one_to_twelve
  = Ok [PyFloat (41 / 12); PyFloat (41 / 12); PyFloat (41 / 12);
        PyInt 4; PyInt 5; PyInt 6; PyInt 7; PyInt 8; PyInt 9; PyInt 10;
        PyInt 11; PyFloat (139 / 12)].
Proof.
  rewrite get_winsorized_list_bounds_once, quartiles_one_to_twelve.
  unfold winsorized_with, one_to_twelve. cbn [map].
  rewrite !winsorize_value_cases. decide_py_lt. reflexivity.
Qed.

(** * The specification's claims *)


(** C2. On the ten values [1..10] the code does not return a Winsorized
    list: the upper-quartile read [value_list[k + 1]] is [value_list[10]],
    one past the end, and the call raises [IndexError]. *)
Theorem get_winsorized_list_one_to_ten :
  get_winsorized_list
    [PyInt 1; PyInt 2; PyInt 3; PyInt 4; PyInt 5;
     PyInt 6; PyInt 7; PyInt 8; PyInt 9; PyInt 10]
  = Raise IndexError.
Proof.
  rewrite get_winsorized_list_bounds_once.
  rewrite quartile_short_list by (cbn [length]; lia).
  reflexivity.
Qed.

(** C3. For every value list (sorted or not) of length [n] with
    [4 <= n <= 10], the upper-quartile index [k + 1] equals
    [n - floor(n/4 + 5/12) + 2], is at least [n], the read at that index
    raises [IndexError], and so does [get_lower_upper_quartile]; the function
    returns a pair only for lists of at least eleven values. *)
Theorem quartile_index_error_from_4_to_10 :
  (forall l : list num,
      (4 <= length l <= 10)%nat ->
      let n := Z.of_nat (length l) in
      (k_at n + 1 = n - Int_part (IZR n / 4 + 5 / 12) + 2)%Z /\
      (n <= k_at n + 1)%Z /\
      py_getitem l (PyInt (k_at n + 1)) = Raise IndexError /\
      get_lower_upper_quartile l = Raise IndexError) /\
  (forall l : list num,
      returns (get_lower_upper_quartile l) -> (11 <= length l)%nat).
Proof.
  split.
  - intros l [Hlo Hhi] n.
    assert (Hk : (n <= k_at n + 1)%Z)
      by (apply quartile_upper_read_past_end; exact Hhi).
    split; [| split; [| split]].
    + unfold k_at. rewrite <- q1_index_at_floor. lia.
    + exact Hk.
    + apply py_getitem_past_end. exact Hk.
    + apply quartile_short_list. exact Hhi.
  - apply quartile_returns_length.
Qed.

(** C4. For every value list with fewer than four values,
    [get_lower_upper_quartile] fails with the index-out-of-range error and
    returns no pair. *)
Theorem quartile_fewer_than_four (l : list num) :
  (length l < 4)%nat ->
  get_lower_upper_quartile l = Raise IndexError /\
  ~ returns (get_lower_upper_quartile l).
Proof.
  intros H.
  assert (E : get_lower_upper_quartile l = Raise IndexError)
    by (apply quartile_short_list; lia).
  split; [exact E |].
  intros [p Hp]. rewrite E in Hp. discriminate.
Qed.

(** C5. On [[1,2,3,4,5]] the code does not return [3]: the index
    [(value_count + 1) / 2] is the float [3.0] and indexing raises
    [TypeError]. *)
Theorem get_median_one_to_five :
  get_median [PyInt 1; PyInt 2; PyInt 3; PyInt 4; PyInt 5] = Raise TypeError.
Proof. apply get_median_type_error. Qed.

(** C6. On the even-length list [[1,2,3,4]] the code does not return the
    element at index [n/2 - 1]: the index [value_count / 2 - 1] is the float
    [1.0] and indexing raises [TypeError]. *)
Theorem get_median_one_to_four :
  py_truediv (py_len [PyInt 1; PyInt 2; PyInt 3; PyInt 4]) (PyInt 2)
    = Ok (PyFloat (4 / 2)) /\
  get_median [PyInt 1; PyInt 2; PyInt 3; PyInt 4] = Raise TypeError.
Proof.
  split.
  - rewrite py_truediv_nonzero by (cbn [to_real]; lra). reflexivity.
  - apply get_median_type_error.
Qed.

(** C7. In both branches of [get_median] the index comes from a true
    division and is a float, so every call, on any list, raises [TypeError]
    at the indexing step and returns no number. *)
Theorem get_median_always_type_error (l : list num) :
  (exists r, py_truediv (py_len l) (PyInt 2) = Ok (PyFloat r)) /\
  (exists r,
      py_truediv (py_add (py_len l) (PyInt 1)) (PyInt 2) = Ok (PyFloat r)) /\
  (forall r, py_getitem l (py_sub (PyFloat r) (PyInt 1)) = Raise TypeError) /\
  get_median l = Raise TypeError.
Proof.
  split; [| split; [| split]].
  - eexists. apply py_truediv_nonzero. cbn [to_real]. lra.
  - eexists. apply py_truediv_nonzero. cbn [to_real]. lra.
  - intros r. rewrite py_sub_float_l. apply py_getitem_float.
  - apply get_median_type_error.
Qed.






(** C10. With bounds [lower <= upper], [winsorize_value] returns [lower]
    for a value below [lower], [upper] for a value above [upper], and the
    value itself when it lies between the bounds. *)
Theorem winsorize_value_clamps (x lower upper : num) :
  to_real lower <= to_real upper ->
  (to_real x < to_real lower -> winsorize_value x (lower, upper) = lower) /\
  (to_real upper < to_real x -> winsorize_value x (lower, upper) = upper) /\
  (to_real lower <= to_real x <= to_real upper ->
   winsorize_value x (lower, upper) = x).
Proof.
  intros Hb. rewrite winsorize_value_cases. split; [| split].
  - intros H. rewrite py_lt_true by exact H. reflexivity.
  - intros H. rewrite py_lt_false by lra. rewrite py_lt_true by exact H.
    reflexivity.
  - intros [H1 H2]. rewrite !py_lt_false by assumption. reflexivity.
Qed.

Lemma winsorize_value_clamps_witness :
  winsorize_value (PyInt 1) (PyFloat 2, PyFloat 5) = PyFloat 2 /\
  winsorize_value (PyInt 9) (PyFloat 2, PyFloat 5) = PyFloat 5 /\
  winsorize_value (PyInt 3) (PyFloat 2, PyFloat 5) = PyInt 3.
Proof.
  assert (Hb : to_real (PyFloat 2) <= to_real (PyFloat 5))
    by (cbn [to_real]; lra).
  split; [| split].
  - apply (proj1 (winsorize_value_clamps (PyInt 1) _ _ Hb)).
    cbn [to_real]. lra.
  - apply (proj1 (proj2 (winsorize_value_clamps (PyInt 9) _ _ Hb))).
    cbn [to_real]. lra.
  - apply (proj2 (proj2 (winsorize_value_clamps (PyInt 3) _ _ Hb))).
    cbn [to_real]. lra.
Defined.

Lemma quartile_index_error_from_4_to_10_witness :
  get_lower_upper_quartile
    [PyInt 1; PyInt 2; PyInt 3; PyInt 4; PyInt 5;
     PyInt 6; PyInt 7; PyInt 8; PyInt 9; PyInt 10] = Raise IndexError /\
  (11 <= length
           [PyInt 1; PyInt 2; PyInt 3; PyInt 4; PyInt 5; PyInt 6;
            PyInt 7; PyInt 8; PyInt 9; PyInt 10; PyInt 11])%nat.
Proof.
  split.
  - apply (proj1 quartile_index_error_from_4_to_10
             [PyInt 1; PyInt 2; PyInt 3; PyInt 4; PyInt 5;
              PyInt 6; PyInt 7; PyInt 8; PyInt 9; PyInt 10]).
    cbn [length]. lia.
  - apply (proj2 quartile_index_error_from_4_to_10).
    eexists. apply quartile_long_list. cbn [length]. lia.
Defined.

Lemma quartile_fewer_than_four_witness :
  get_lower_upper_quartile [PyInt 1; PyInt 2; PyInt 3] = Raise IndexError.
Proof.
  apply (proj1 (quartile_fewer_than_four [PyInt 1; PyInt 2; PyInt 3]
                  ltac:(cbn [length]; lia))).
Defined.

(** * Further properties of the statistics kernel *)

(** ** Interpolation and the weight [h] *)

Lemma h_at_mod (n : Z) :
  to_real (h_at n) = IZR ((3 * n + 5) mod 12) / 12.
Proof.
  unfold h_at, q1_index_at. cbn [to_real].
  pose proof (Z.div_mod (3 * n + 5) 12 ltac:(lia)) as Hdm.
  apply (f_equal IZR) in Hdm.
  rewrite !plus_IZR, !mult_IZR in Hdm. lra.
Qed.

Lemma h_at_range (n : Z) : 0 <= to_real (h_at n) < 1.
Proof.
  rewrite h_at_mod.
  pose proof (Z.mod_pos_bound (3 * n + 5) 12 ltac:(lia)) as [Hlo Hhi].
  apply IZR_le in Hlo. apply IZR_lt in Hhi. split; lra.
Qed.

Lemma interpolate_real (h x y : num) :
  (exists r, h = PyFloat r) ->
  to_real (interpolate h x y)
  = (1 - to_real h) * to_real x + to_real h * to_real y.
Proof.
  intros [r ->]. unfold interpolate.
  destruct x, y; cbn [py_sub py_mul py_add to_real]; reflexivity.
Qed.

Lemma interpolate_h_at_real (n : Z) (x y : num) :
  to_real (interpolate (h_at n) x y)
  = (1 - to_real (h_at n)) * to_real x + to_real (h_at n) * to_real y.
Proof. apply interpolate_real. unfold h_at. eauto. Qed.

(** An interpolated value lies between its two end points. *)
Lemma interpolate_between (n : Z) (x y : num) :
  to_real x <= to_real y ->
  to_real x <= to_real (interpolate (h_at n) x y) <= to_real y.
Proof.
  intros Hxy. rewrite interpolate_h_at_real.
  pose proof (h_at_range n) as [H0 H1]. split; nra.
Qed.

Lemma interpolate_between_rev (n : Z) (x y : num) :
  to_real y <= to_real x ->
  to_real y <= to_real (interpolate (h_at n) x y) <= to_real x.
Proof.
  intros Hxy. rewrite interpolate_h_at_real.
  pose proof (h_at_range n) as [H0 H1]. split; nra.
Qed.

(** ** Sorted lists *)

Lemma sorted_nth_le (l : list num) (d : num) :
  StronglySorted num_le l ->
  forall i j : nat,
    (i <= j < length l)%nat -> num_le (nth i l d) (nth j l d).
Proof.
  induction 1 as [| a t Ht IH Hall]; intros i j [Hij Hj].
  - cbn [length] in Hj. lia.
  - cbn [length] in Hj. destruct i as [| i], j as [| j]; cbn [nth].
    + unfold num_le. lra.
    + rewrite Forall_forall in Hall. apply Hall. apply nth_In. lia.
    + lia.
    + apply IH. lia.
Qed.

Lemma quartile_index_order (n : Z) :
  (11 <= n)%Z ->
  (0 <= q1_index_at n - 1 /\ 3 <= q1_index_at n /\
   q1_index_at n <= k_at n /\ k_at n + 1 < n)%Z.
Proof.
  intros Hn. unfold k_at, q1_index_at. Z.div_mod_to_equations. lia.
Qed.

(** ** The quartile pair of a sorted list *)

Lemma quartile_long_list_items (l : list num) :
  (11 <= length l)%nat ->
  let n := Z.of_nat (length l) in
  get_lower_upper_quartile l =
  Ok (interpolate (h_at n) (item l (q1_index_at n - 1)) (item l (q1_index_at n)),
      interpolate (h_at n) (item l (k_at n + 1)) (item l (k_at n))).
Proof. intros H n. apply quartile_long_list. exact H. Qed.

Lemma item_le (l : list num) (a b : Z) :
  StronglySorted num_le l ->
  (0 <= a <= b)%Z -> (b < Z.of_nat (length l))%Z ->
  to_real (item l a) <= to_real (item l b).
Proof.
  intros Hs Hab Hb. unfold item.
  apply (sorted_nth_le l (PyInt 0) Hs). lia.
Qed.

Lemma sorted_quartile_bounds (l : list num) :
  StronglySorted num_le l ->
  (11 <= length l)%nat ->
  let n := Z.of_nat (length l) in
  let lower := interpolate (h_at n) (item l (q1_index_at n - 1))
                 (item l (q1_index_at n)) in
  let upper := interpolate (h_at n) (item l (k_at n + 1)) (item l (k_at n)) in
  (to_real (item l (q1_index_at n - 1)) <= to_real lower
   <= to_real (item l (q1_index_at n))) /\
  (to_real (item l (k_at n)) <= to_real upper
   <= to_real (item l (k_at n + 1))) /\
  to_real lower <= to_real upper.
Proof.
  intros Hs Hlen n lower upper.
  assert (Hn : (11 <= n)%Z) by (unfold n; lia).
  destruct (quartile_index_order n Hn) as (Hj0 & Hj3 & Hjk & Hkn).
  assert (H1 : to_real (item l (q1_index_at n - 1))
               <= to_real (item l (q1_index_at n)))
    by (apply item_le; [exact Hs | lia | fold n; lia]).
  assert (H2 : to_real (item l (q1_index_at n)) <= to_real (item l (k_at n)))
    by (apply item_le; [exact Hs | lia | fold n; lia]).
  assert (H3 : to_real (item l (k_at n)) <= to_real (item l (k_at n + 1)))
    by (apply item_le; [exact Hs | lia | fold n; lia]).
  pose proof (interpolate_between n _ _ H1) as Hlo.
  pose proof (interpolate_between_rev n _ _ H3) as Hup.
  fold lower in Hlo. fold upper in Hup.
  split; [exact Hlo |]. split; [exact Hup |]. lra.
Qed.

(** ** More on the clamp *)

Lemma winsorize_value_within (x lower upper : num) :
  to_real lower <= to_real upper ->
  within (lower, upper) (winsorize_value x (lower, upper)).
Proof.
  intros Hb. unfold within. cbn [fst snd]. rewrite winsorize_value_cases.
  unfold py_lt.
  destruct (Rlt_dec (to_real x) (to_real lower)) as [H1 | H1]; [lra |].
  destruct (Rlt_dec (to_real upper) (to_real x)) as [H2 | H2]; lra.
Qed.

Lemma winsorize_value_fixed (x : num) (q : num * num) :
  within q x -> winsorize_value x q = x.
Proof.
  destruct q as [lower upper]. unfold within. cbn [fst snd]. intros [H1 H2].
  rewrite winsorize_value_cases, !py_lt_false by assumption. reflexivity.
Qed.



Lemma winsorize_value_mono (x y lower upper : num) :
  to_real lower <= to_real upper ->
  to_real x <= to_real y ->
  to_real (winsorize_value x (lower, upper))
  <= to_real (winsorize_value y (lower, upper)).
Proof.
  intros Hb Hxy. rewrite !winsorize_value_cases. unfold py_lt.
  destruct (Rlt_dec (to_real x) (to_real lower));
    destruct (Rlt_dec (to_real y) (to_real lower));
    destruct (Rlt_dec (to_real upper) (to_real x));
    destruct (Rlt_dec (to_real upper) (to_real y)); lra.
Qed.

Lemma winsorized_with_length (q : num * num) (l : list num) :
  length (winsorized_with q l) = length l.
Proof. unfold winsorized_with. apply length_map. Qed.

Lemma winsorized_with_item (q : num * num) (l : list num) (z : Z) :
  (0 <= z < Z.of_nat (length l))%Z ->
  item (winsorized_with q l) z = winsorize_value (item l z) q.
Proof.
  intros Hz. unfold item, winsorized_with.
  rewrite (nth_indep _ (PyInt 0) (winsorize_value (PyInt 0) q))
    by (rewrite length_map; lia).
  apply (map_nth (fun value => winsorize_value value q)).
Qed.

Lemma winsorized_with_within (lower upper : num) (l : list num) :
  to_real lower <= to_real upper ->
  Forall (within (lower, upper)) (winsorized_with (lower, upper) l).
Proof.
  intros Hb. unfold winsorized_with. apply Forall_map, Forall_forall.
  intros x _. apply winsorize_value_within. exact Hb.
Qed.

Lemma winsorized_with_sorted (lower upper : num) (l : list num) :
  to_real lower <= to_real upper ->
  StronglySorted num_le l ->
  StronglySorted num_le (winsorized_with (lower, upper) l).
Proof.
  intros Hb. unfold winsorized_with.
  induction 1 as [| a t Ht IH Hall]; cbn [map]; constructor.
  - exact IH.
  - apply Forall_map. eapply Forall_impl; [| exact Hall].
    intros y Hy. apply winsorize_value_mono; assumption.
Qed.

(** ** The mean of bounded values *)



(** ** Sorting floats gives one result per multiset *)







(** ** More on the hexagon area *)



(** ** The Winsorized list of a sorted list *)

Lemma sorted_winsorized_summary (l : list num) :
  StronglySorted num_le l ->
  (11 <= length l)%nat ->
  exists lower upper : num,
    get_lower_upper_quartile l = Ok (lower, upper) /\
    get_winsorized_list l = Ok (winsorized_with (lower, upper) l) /\
    to_real (item l (q1_index_at (Z.of_nat (length l)) - 1)) <= to_real lower /\
    to_real upper
      <= to_real (item l (k_at (Z.of_nat (length l)) + 1)) /\
    to_real lower <= to_real upper.
Proof.
  intros Hs Hlen.
  pose proof (quartile_long_list_items l Hlen) as Hq. cbv zeta in Hq.
  pose proof (sorted_quartile_bounds l Hs Hlen) as Hb. cbv zeta in Hb.
  destruct Hb as ([Hl1 _] & [_ Hu2] & Hlu).
  eexists. eexists. split; [exact Hq |].
  split; [rewrite get_winsorized_list_bounds_once, Hq; reflexivity |].
  split; [exact Hl1 |]. split; [exact Hu2 | exact Hlu].
Qed.




Lemma one_to_twelve_sorted : StronglySorted num_le one_to_twelve.
Proof.
  unfold one_to_twelve.
  repeat (constructor; [| repeat (constructor; [unfold num_le; cbn [to_real]; lra |]); constructor]).
  constructor.
Qed.

Lemma one_to_twelve_length : (11 <= length one_to_twelve)%nat.
Proof. cbn [one_to_twelve length]. lia. Qed.

(** * Further verified properties *)




(** X3. On a list of [n >= 11] values, sorted or not, the quartile
    estimator returns.  With [j = (3n + 5) div 12] and
    [h = ((3n + 5) mod 12) / 12], the lower quartile is
    [(1 - h) * l[j - 1] + h * l[j]] and the upper quartile is
    [(1 - h) * l[n - j + 2] + h * l[n - j + 1]] (0-based indices), with
    [0 <= h < 1]. *)
Theorem quartile_closed_form (l : list num) :
  (11 <= length l)%nat ->
  let n := Z.of_nat (length l) in
  let j := ((3 * n + 5) / 12)%Z in
  let h := IZR ((3 * n + 5) mod 12) / 12 in
  exists lower upper : num,
    get_lower_upper_quartile l = Ok (lower, upper) /\
    to_real lower
      = (1 - h) * to_real (item l (j - 1)) + h * to_real (item l j) /\
    to_real upper
      = (1 - h) * to_real (item l (n - j + 2))
        + h * to_real (item l (n - j + 1)) /\
    0 <= h < 1.
Proof.
  intros Hlen n j h.
  pose proof (quartile_long_list_items l Hlen) as Hq. cbv zeta in Hq.
  fold n in Hq. eexists. eexists. split; [exact Hq |].
  assert (Hh : to_real (h_at n) = h) by apply h_at_mod.
  split; [| split].
  - rewrite interpolate_h_at_real, Hh. reflexivity.
  - rewrite interpolate_h_at_real, Hh.
    replace (n - j + 2)%Z with (k_at n + 1)%Z
      by (unfold k_at, q1_index_at, j; lia).
    reflexivity.
  - rewrite <- Hh. apply h_at_range.
Qed.

Lemma quartile_closed_form_witness :
  exists lower upper : num,
    get_lower_upper_quartile one_to_twelve = Ok (lower, upper).
Proof.
  destruct (quartile_closed_form one_to_twelve one_to_twelve_length)
    as (lower & upper & Hq & _).
  exists lower, upper. exact Hq.
Defined.



(** X5. With [lower <= upper] the result of [winsorize_value] always lies
    in [[lower, upper]], and Winsorizing it again with the same bounds
    changes nothing. *)
Theorem winsorize_value_range_idempotent (x lower upper : num) :
  to_real lower <= to_real upper ->
  within (lower, upper) (winsorize_value x (lower, upper)) /\
  winsorize_value (winsorize_value x (lower, upper)) (lower, upper)
  = winsorize_value x (lower, upper).
Proof.
  intros Hb.
  pose proof (winsorize_value_within x lower upper Hb) as Hw.
  split; [exact Hw |]. apply winsorize_value_fixed. exact Hw.
Qed.

Lemma winsorize_value_range_idempotent_witness :
  within (PyFloat 2, PyFloat 5) (winsorize_value (PyInt 9) (PyFloat 2, PyFloat 5)) /\
  winsorize_value (winsorize_value (PyInt 9) (PyFloat 2, PyFloat 5))
    (PyFloat 2, PyFloat 5)
  = winsorize_value (PyInt 9) (PyFloat 2, PyFloat 5).
Proof.
  apply (winsorize_value_range_idempotent (PyInt 9) (PyFloat 2) (PyFloat 5)).
  cbn [to_real]. lra.
Defined.

(** X6. With [lower <= upper], [winsorize_value] preserves order: if
    [x <= y] then the Winsorized [x] is at most the Winsorized [y]. *)
Theorem winsorize_value_monotone (x y lower upper : num) :
  to_real lower <= to_real upper ->
  to_real x <= to_real y ->
  to_real (winsorize_value x (lower, upper))
  <= to_real (winsorize_value y (lower, upper)).
Proof. apply winsorize_value_mono. Qed.

Lemma winsorize_value_monotone_witness :
  to_real (winsorize_value (PyInt 1) (PyFloat 2, PyFloat 5))
  <= to_real (winsorize_value (PyInt 3) (PyFloat 2, PyFloat 5)).
Proof.
  apply (winsorize_value_monotone (PyInt 1) (PyInt 3) (PyFloat 2) (PyFloat 5));
    cbn [to_real]; lra.
Defined.

(** X7. With inverted bounds, [upper < lower], [winsorize_value] clamps
    into no interval: a value below [lower] becomes [lower] and every other
    value becomes [upper], so no value is left unchanged unless it equals
    the bound it is sent to. *)
Theorem winsorize_value_inverted_bounds (x lower upper : num) :
  to_real upper < to_real lower ->
  (to_real x < to_real lower -> winsorize_value x (lower, upper) = lower) /\
  (to_real lower <= to_real x -> winsorize_value x (lower, upper) = upper).
Proof.
  intros Hinv. rewrite winsorize_value_cases. split; intros Hx.
  - rewrite py_lt_true by exact Hx. reflexivity.
  - rewrite py_lt_false by exact Hx. rewrite py_lt_true by lra. reflexivity.
Qed.

Lemma winsorize_value_inverted_bounds_witness :
  winsorize_value (PyInt 3) (PyFloat 5, PyFloat 2) = PyFloat 5 /\
  winsorize_value (PyInt 7) (PyFloat 5, PyFloat 2) = PyFloat 2.
Proof.
  assert (Hinv : to_real (PyFloat 2) < to_real (PyFloat 5))
    by (cbn [to_real]; lra).
  split.
  - apply (proj1 (winsorize_value_inverted_bounds (PyInt 3) _ _ Hinv)).
    cbn [to_real]. lra.
  - apply (proj2 (winsorize_value_inverted_bounds (PyInt 7) _ _ Hinv)).
    cbn [to_real]. lra.
Defined.

(** X8. [get_winsorized_list] raises [IndexError] on every list of at most
    ten values; on a list of at least eleven values, sorted or not, it
    returns a list of the same length whose element at each index is the
    input's element at that index clamped with the one quartile pair of the
    whole input. *)
Theorem get_winsorized_list_keeps_length_and_order (l : list num) :
  ((length l <= 10)%nat -> get_winsorized_list l = Raise IndexError) /\
  ((11 <= length l)%nat ->
   exists (q : num * num) (w : list num),
     get_lower_upper_quartile l = Ok q /\
     get_winsorized_list l = Ok w /\
     length w = length l /\
     forall z : Z,
       (0 <= z < Z.of_nat (length l))%Z ->
       item w z = winsorize_value (item l z) q).
Proof.
  rewrite get_winsorized_list_bounds_once. split; intros Hlen.
  - rewrite quartile_short_list by exact Hlen. reflexivity.
  - pose proof (quartile_long_list_items l Hlen) as Hq. cbv zeta in Hq.
    rewrite Hq. eexists. exists (winsorized_with
      (interpolate (h_at (Z.of_nat (length l)))
         (item l (q1_index_at (Z.of_nat (length l)) - 1))
         (item l (q1_index_at (Z.of_nat (length l)))),
       interpolate (h_at (Z.of_nat (length l)))
         (item l (k_at (Z.of_nat (length l)) + 1))
         (item l (k_at (Z.of_nat (length l))))) l).
    split; [reflexivity |]. split; [reflexivity |].
    split; [apply winsorized_with_length |].
    intros z Hz. apply winsorized_with_item. exact Hz.
Qed.

Lemma get_winsorized_list_keeps_length_and_order_witness :
  get_winsorized_list [PyInt 1; PyInt 2; PyInt 3] = Raise IndexError /\
  exists w : list num,
    get_winsorized_list one_to_twelve = Ok w /\
    length w = length one_to_twelve.
Proof.
  split.
  - apply (proj1 (get_winsorized_list_keeps_length_and_order
                    [PyInt 1; PyInt 2; PyInt 3])).
    cbn [length]. lia.
  - destruct (proj2 (get_winsorized_list_keeps_length_and_order one_to_twelve)
                one_to_twelve_length) as (q & w & _ & Hw & Hl & _).
    exists w. split; [exact Hw | exact Hl].
Defined.



(** X10. On a sorted list of at least eleven values the Winsorized list is
    again sorted ascending and all its values lie between the two
    quartiles. *)
Theorem winsorized_sorted_list_sorted_within (l : list num) :
  StronglySorted num_le l ->
  (11 <= length l)%nat ->
  exists (lower upper : num) (w : list num),
    get_lower_upper_quartile l = Ok (lower, upper) /\
    get_winsorized_list l = Ok w /\
    StronglySorted num_le w /\
    Forall (within (lower, upper)) w.
Proof.
  intros Hs Hlen.
  destruct (sorted_winsorized_summary l Hs Hlen)
    as (lower & upper & Hq & Hw & _ & _ & Hlu).
  exists lower, upper, (winsorized_with (lower, upper) l).
  split; [exact Hq |]. split; [exact Hw |]. split.
  - apply winsorized_with_sorted; assumption.
  - apply winsorized_with_within. exact Hlu.
Qed.

Lemma winsorized_sorted_list_sorted_within_witness :
  exists w : list num,
    get_winsorized_list one_to_twelve = Ok w /\ StronglySorted num_le w.
Proof.
  destruct (winsorized_sorted_list_sorted_within one_to_twelve
              one_to_twelve_sorted one_to_twelve_length)
    as (lower & upper & w & _ & Hw & Hsorted & _).
  exists w. split; [exact Hw | exact Hsorted].
Defined.

(** ** The pipeline on feature classes *)




Lemma six_squares_length : (6 <= length six_squares)%nat.
Proof. cbn [six_squares repeat length]. lia. Qed.














(** * The functions that drive the GIS engine *)

Lemma get_hex_area_returns_rows (rows : FeatureClass) (a : num) :
  get_hex_area rows = Ok a -> (6 <= length rows)%nat.
Proof.
  intros Ha. destruct (le_lt_dec (length rows) 5) as [Hfew | Hmany]; [| lia].
  rewrite (proj1 (get_hex_area_feature_threshold rows) Hfew) in Ha.
  discriminate.
Qed.

Lemma get_hex_area_few_rows (rows : FeatureClass) :
  (length rows <= 5)%nat -> get_hex_area rows = Raise IndexError.
Proof. apply get_hex_area_feature_threshold. Qed.

(** One step of a run: answer the next call of the hypothesis [H], or
    branch on the result of the computation on the cursor's rows. *)
Ltac run_step H :=
  cbn [run pbind invoke lift app] in H;
  lazymatch type of H with
  | context [match ?env ?T ?log ?c with _ => _ end] =>
      destruct (env T log c) eqn:?
  | context [lift (get_hex_area ?rows)] =>
      destruct (get_hex_area rows) eqn:?
  end.

Ltac run_all H := repeat run_step H; cbn [run pbind invoke lift app] in H.

Ltac run_program H :=
  unfold get_hexbins_by_cbsa, get_hexbins_from_block_groups,
    get_hexbins_full_extent, get_hex_area_via_cursor in H;
  run_all H.

Ltac read_rows H :=
  cbn [rows_read flat_map rows_of app In] in H.

(** Worked runs against a responder that answers every call. *)
Lemma answering_full_extent :
  exists tr : list event,
    run (answering six_squares)
      (get_hexbins_full_extent (Str "block_groups") (Str "out")) []
    = (Returned (Str "hexbins"), tr).
Proof.
  destruct (proj2 (get_hex_area_feature_threshold six_squares)
              six_squares_length) as [a Ha].
  unfold get_hexbins_full_extent, get_hex_area_via_cursor.
  cbn [run pbind invoke lift app answering]. rewrite Ha.
  cbn [run pbind invoke lift app answering]. eexists. reflexivity.
Qed.

Lemma answering_from_block_groups :
  exists tr : list event,
    run (answering six_squares)
      (get_hexbins_from_block_groups (Str "block_groups") (Str "out")) []
    = (Returned (Str "out"), tr).
Proof.
  destruct (proj2 (get_hex_area_feature_threshold six_squares)
              six_squares_length) as [a Ha].
  unfold get_hexbins_from_block_groups, get_hexbins_full_extent,
    get_hex_area_via_cursor.
  cbn [run pbind invoke lift app answering]. rewrite Ha.
  cbn [run pbind invoke lift app answering]. eexists. reflexivity.
Qed.

Lemma answering_by_cbsa :
  exists tr : list event,
    run (answering six_squares)
      (get_hexbins_by_cbsa (Str "cbsa") (Str "out")) []
    = (Returned (Str "out"), tr).
Proof.
  destruct (proj2 (get_hex_area_feature_threshold six_squares)
              six_squares_length) as [a Ha].
  unfold get_hexbins_by_cbsa, get_hexbins_from_block_groups,
    get_hexbins_full_extent, get_hex_area_via_cursor.
  cbn [run pbind invoke lift app answering]. rewrite Ha.
  cbn [run pbind invoke lift app answering]. eexists. reflexivity.
Qed.

Lemma answering_no_rows_from_block_groups :
  run (answering [])
    (get_hexbins_from_block_groups (Str "block_groups") (Str "out")) []
  = (Raised IndexError,
     [ Event (MakeFeatureLayer_management (Str "block_groups")
                "block_group_layer") (Some (Ref 4));
       Event (Describe (Str "block_groups")) (Some (Ref 1));
       Event (getattr (Ref 1) "extent") (Some (Ref 2));
       Event (SearchCursor (Str "block_groups") "SHAPE@") (Some []) ]).
Proof.
  unfold get_hexbins_from_block_groups, get_hexbins_full_extent,
    get_hex_area_via_cursor.
  cbn [run pbind invoke lift app answering].
  rewrite (get_hex_area_few_rows []) by (cbn [length]; lia).
  reflexivity.
Qed.

Lemma answering_no_rows_by_cbsa :
  exists tr : list event,
    run (answering []) (get_hexbins_by_cbsa (Str "cbsa") (Str "out")) []
    = (Raised IndexError, tr) /\
    In [] (rows_read tr).
Proof.
  unfold get_hexbins_by_cbsa, get_hexbins_from_block_groups,
    get_hexbins_full_extent, get_hex_area_via_cursor.
  cbn [run pbind invoke lift app answering].
  rewrite (get_hex_area_few_rows []) by (cbn [length]; lia).
  cbn [run pbind invoke lift app answering].
  eexists. split; [reflexivity |].
  cbn [rows_read flat_map rows_of app In]. left. reflexivity.
Qed.

(** X17. Whenever [get_hexbins_full_extent] returns, it returns element
    [0] of the tessellation result, and it has made exactly these calls, all
    successful and in this order: [Describe] the block groups, read its
    [extent], read the rows (at least six) with a ['SHAPE@'] cursor, read
    [spatialReference], and generate a ['HEXAGON'] tessellation into the
    output path, over that extent and spatial reference, with [Size] the
    area [get_hex_area] computes from the rows. *)
Theorem get_hexbins_full_extent_success
  (env : responder) (block_groups out v : obj) (tr : list event) :
  run env (get_hexbins_full_extent block_groups out) [] = (Returned v, tr) ->
  exists (describe ext sr tessellation : obj) (rows : FeatureClass)
         (size : num),
    (6 <= length rows)%nat /\
    get_hex_area rows = Ok size /\
    tr = [ Event (Describe block_groups) (Some describe);
           Event (getattr describe "extent") (Some ext);
           Event (SearchCursor block_groups "SHAPE@") (Some rows);
           Event (getattr describe "spatialReference") (Some sr);
           Event (GenerateTessellation_management out ext "HEXAGON"
                    size sr) (Some tessellation);
           Event (getitem tessellation 0) (Some v) ].
Proof.
  intros H. run_program H; try discriminate H.
  injection H as <- <-.
  do 6 eexists. split; [eapply get_hex_area_returns_rows; eassumption |].
  split; [eassumption | reflexivity].
Qed.

Lemma get_hexbins_full_extent_success_witness :
  exists (tr : list event) (rows : FeatureClass) (size : num),
    run (answering six_squares)
      (get_hexbins_full_extent (Str "block_groups") (Str "out")) []
    = (Returned (Str "hexbins"), tr) /\
    (6 <= length rows)%nat /\ get_hex_area rows = Ok size.
Proof.
  destruct answering_full_extent as [tr Hrun].
  destruct (get_hexbins_full_extent_success _ _ _ _ _ Hrun)
    as (_ & _ & _ & _ & rows & size & Hlen & Hsize & _).
  exists tr, rows, size. split; [exact Hrun |]. split; [exact Hlen | exact Hsize].
Defined.

(** X18. Whenever [get_hexbins_from_block_groups] returns, it returns the
    output path it was given, and it has made exactly these calls, all
    successful and in this order: make the layer ['block_group_layer'] of the
    block groups; the six calls of [get_hexbins_full_extent]; make the layer
    ['hexbins_layer'] of the tessellation; select in it, inverted, the
    hexagons that ['INTERSECT'] the block-group layer; delete the selected
    features of the hexbin layer. *)
Theorem get_hexbins_from_block_groups_success
  (env : responder) (block_groups out v : obj) (tr : list event) :
  run env (get_hexbins_from_block_groups block_groups out) []
    = (Returned v, tr) ->
  v = out /\
  exists (block_group_layer describe ext sr tessellation hexbins
            hexbin_layer selected deleted : obj)
         (rows : FeatureClass) (size : num),
    (6 <= length rows)%nat /\
    get_hex_area rows = Ok size /\
    tr = [ Event (MakeFeatureLayer_management block_groups
                    "block_group_layer") (Some block_group_layer);
           Event (Describe block_groups) (Some describe);
           Event (getattr describe "extent") (Some ext);
           Event (SearchCursor block_groups "SHAPE@") (Some rows);
           Event (getattr describe "spatialReference") (Some sr);
           Event (GenerateTessellation_management out ext "HEXAGON"
                    size sr) (Some tessellation);
           Event (getitem tessellation 0) (Some hexbins);
           Event (MakeFeatureLayer_management hexbins "hexbins_layer")
             (Some hexbin_layer);
           Event (SelectLayerByLocation_management hexbin_layer "INTERSECT"
                    block_group_layer "NEW_SELECTION" (Some "INVERT"%string))
             (Some selected);
           Event (DeleteFeatures_management hexbin_layer) (Some deleted) ].
Proof.
  intros H. run_program H; try discriminate H.
  injection H as <- <-. split; [reflexivity |].
  do 11 eexists. split; [eapply get_hex_area_returns_rows; eassumption |].
  split; [eassumption | reflexivity].
Qed.

Lemma get_hexbins_from_block_groups_success_witness :
  exists tr : list event,
    run (answering six_squares)
      (get_hexbins_from_block_groups (Str "block_groups") (Str "out")) []
    = (Returned (Str "out"), tr) /\
    Str "out" = Str "out".
Proof.
  destruct answering_from_block_groups as [tr Hrun].
  exists tr. split; [exact Hrun |].
  exact (proj1 (get_hexbins_from_block_groups_success _ _ _ _ _ Hrun)).
Defined.

(** X19. If the cursor of a run of [get_hexbins_from_block_groups]
    delivers at most five rows, the run ends with [IndexError] right after
    the cursor: the block-group layer has been made, but no tessellation is
    generated and nothing is deleted. *)
Theorem get_hexbins_from_block_groups_too_few_rows
  (env : responder) (block_groups out : obj) (o : outcome obj)
  (tr : list event) (rows : FeatureClass) :
  run env (get_hexbins_from_block_groups block_groups out) [] = (o, tr) ->
  In rows (rows_read tr) ->
  (length rows <= 5)%nat ->
  o = Raised IndexError /\
  existsb writes tr = false /\
  exists block_group_layer describe ext : obj,
    tr = [ Event (MakeFeatureLayer_management block_groups
                    "block_group_layer") (Some block_group_layer);
           Event (Describe block_groups) (Some describe);
           Event (getattr describe "extent") (Some ext);
           Event (SearchCursor block_groups "SHAPE@") (Some rows) ].
Proof.
  intros H Hin Hfew. run_program H; injection H as <- <-; read_rows Hin;
    try contradiction;
    destruct Hin as [-> | []];
    match goal with
    | E : get_hex_area rows = _ |- _ =>
        rewrite (get_hex_area_few_rows rows Hfew) in E
    end;
    try discriminate.
  match goal with E : Raise _ = Raise _ |- _ => injection E as <- end.
  split; [reflexivity |]. split; [reflexivity |].
  do 3 eexists. reflexivity.
Qed.

Lemma get_hexbins_from_block_groups_too_few_rows_witness :
  Raised IndexError = Raised (A := obj) IndexError /\
  existsb writes
    [ Event (MakeFeatureLayer_management (Str "block_groups")
               "block_group_layer") (Some (Ref 4));
      Event (Describe (Str "block_groups")) (Some (Ref 1));
      Event (getattr (Ref 1) "extent") (Some (Ref 2));
      Event (SearchCursor (Str "block_groups") "SHAPE@") (Some []) ] = false.
Proof.
  destruct (get_hexbins_from_block_groups_too_few_rows
              (answering []) (Str "block_groups") (Str "out") _ _ []
              answering_no_rows_from_block_groups)
    as (Ho & Hw & _).
  - cbn [rows_read flat_map rows_of app In]. left. reflexivity.
  - cbn [length]. lia.
  - split; [exact Ho | exact Hw].
Defined.

(** X20. In every run of [get_hexbins_from_block_groups], features are
    deleted only as the very last call, after the tessellation was generated
    from at least six rows and the inverted selection succeeded, and only
    from the layer made of the new tessellation. *)
Theorem get_hexbins_from_block_groups_deletes_last
  (env : responder) (block_groups out : obj) (o : outcome obj)
  (tr : list event) :
  run env (get_hexbins_from_block_groups block_groups out) [] = (o, tr) ->
  existsb deletes tr = true ->
  exists (block_group_layer describe ext sr tessellation hexbins
            hexbin_layer selected : obj)
         (rows : FeatureClass) (size : num) (deleted : option obj),
    (6 <= length rows)%nat /\
    get_hex_area rows = Ok size /\
    tr = [ Event (MakeFeatureLayer_management block_groups
                    "block_group_layer") (Some block_group_layer);
           Event (Describe block_groups) (Some describe);
           Event (getattr describe "extent") (Some ext);
           Event (SearchCursor block_groups "SHAPE@") (Some rows);
           Event (getattr describe "spatialReference") (Some sr);
           Event (GenerateTessellation_management out ext "HEXAGON"
                    size sr) (Some tessellation);
           Event (getitem tessellation 0) (Some hexbins);
           Event (MakeFeatureLayer_management hexbins "hexbins_layer")
             (Some hexbin_layer);
           Event (SelectLayerByLocation_management hexbin_layer "INTERSECT"
                    block_group_layer "NEW_SELECTION" (Some "INVERT"%string))
             (Some selected);
           Event (DeleteFeatures_management hexbin_layer) deleted ].
Proof.
  intros H Hdel. run_program H; injection H as <- <-;
    cbn [existsb deletes orb] in Hdel; try discriminate Hdel.
  - do 11 eexists. split; [eapply get_hex_area_returns_rows; eassumption |].
    split; [eassumption | reflexivity].
  - do 11 eexists. split; [eapply get_hex_area_returns_rows; eassumption |].
    split; [eassumption | reflexivity].
Qed.

Lemma get_hexbins_from_block_groups_deletes_last_witness :
  exists (tr : list event) (rows : FeatureClass),
    run (answering six_squares)
      (get_hexbins_from_block_groups (Str "block_groups") (Str "out")) []
    = (Returned (Str "out"), tr) /\
    (6 <= length rows)%nat.
Proof.
  destruct answering_from_block_groups as [tr Hrun].
  assert (Hdel : existsb deletes tr = true).
  { destruct (proj2 (get_hex_area_feature_threshold six_squares)
                six_squares_length) as [a Ha].
    unfold get_hexbins_from_block_groups, get_hexbins_full_extent,
      get_hex_area_via_cursor in Hrun.
    cbn [run pbind invoke lift app answering] in Hrun. rewrite Ha in Hrun.
    cbn [run pbind invoke lift app answering] in Hrun.
    injection Hrun as <-. reflexivity. }
  destruct (get_hexbins_from_block_groups_deletes_last _ _ _ _ _ Hrun Hdel)
    as (_ & _ & _ & _ & _ & _ & _ & _ & rows & _ & _ & Hlen & _).
  exists tr, rows. split; [exact Hrun | exact Hlen].
Defined.

(** X21. Whenever [get_hexbins_by_cbsa] returns, it returns the output
    path it was given, after these successful calls, in this order: ask
    [get_usa_data_path] for the data directory; join it with
    ['Data\Demographic Data\esri_bg.bds']; make the layer ['block_group_lyr']
    of that path; select in it, not inverted, the block groups that
    ['INTERSECT'] the CBSA layer; then the ten calls of
    [get_hexbins_from_block_groups] on that layer. *)
Theorem get_hexbins_by_cbsa_success
  (env : responder) (layer_with_cbsa_selected out v : obj)
  (tr : list event) :
  run env (get_hexbins_by_cbsa layer_with_cbsa_selected out) []
    = (Returned v, tr) ->
  v = out /\
  exists (usa_data_path block_group_feature_class block_groups cbsa_selected
            block_group_layer describe ext sr tessellation hexbins
            hexbin_layer selected deleted : obj)
         (rows : FeatureClass) (size : num),
    (6 <= length rows)%nat /\
    get_hex_area rows = Ok size /\
    tr = [ Event get_usa_data_path (Some usa_data_path);
           Event (os_path_join usa_data_path
                    "Data\Demographic Data\esri_bg.bds")
             (Some block_group_feature_class);
           Event (MakeFeatureLayer_management block_group_feature_class
                    "block_group_lyr") (Some block_groups);
           Event (SelectLayerByLocation_management block_groups "INTERSECT"
                    layer_with_cbsa_selected "NEW_SELECTION" None)
             (Some cbsa_selected);
           Event (MakeFeatureLayer_management block_groups
                    "block_group_layer") (Some block_group_layer);
           Event (Describe block_groups) (Some describe);
           Event (getattr describe "extent") (Some ext);
           Event (SearchCursor block_groups "SHAPE@") (Some rows);
           Event (getattr describe "spatialReference") (Some sr);
           Event (GenerateTessellation_management out ext "HEXAGON"
                    size sr) (Some tessellation);
           Event (getitem tessellation 0) (Some hexbins);
           Event (MakeFeatureLayer_management hexbins "hexbins_layer")
             (Some hexbin_layer);
           Event (SelectLayerByLocation_management hexbin_layer "INTERSECT"
                    block_group_layer "NEW_SELECTION" (Some "INVERT"%string))
             (Some selected);
           Event (DeleteFeatures_management hexbin_layer) (Some deleted) ].
Proof.
  intros H. run_program H; try discriminate H.
  injection H as <- <-. split; [reflexivity |].
  do 15 eexists. split; [eapply get_hex_area_returns_rows; eassumption |].
  split; [eassumption | reflexivity].
Qed.

Lemma get_hexbins_by_cbsa_success_witness :
  exists tr : list event,
    run (answering six_squares)
      (get_hexbins_by_cbsa (Str "cbsa") (Str "out")) []
    = (Returned (Str "out"), tr) /\
    Str "out" = Str "out".
Proof.
  destruct answering_by_cbsa as [tr Hrun].
  exists tr. split; [exact Hrun |].
  exact (proj1 (get_hexbins_by_cbsa_success _ _ _ _ _ Hrun)).
Defined.

(** X22. If the cursor of a run of [get_hexbins_by_cbsa] delivers at most
    five rows (at most five block groups intersect the CBSA), the run ends
    with [IndexError]; no tessellation has been generated and nothing has
    been deleted. *)
Theorem get_hexbins_by_cbsa_too_few_rows
  (env : responder) (layer_with_cbsa_selected out : obj) (o : outcome obj)
  (tr : list event) (rows : FeatureClass) :
  run env (get_hexbins_by_cbsa layer_with_cbsa_selected out) [] = (o, tr) ->
  In rows (rows_read tr) ->
  (length rows <= 5)%nat ->
  o = Raised IndexError /\ existsb writes tr = false.
Proof.
  intros H Hin Hfew. run_program H; injection H as <- <-; read_rows Hin;
    try contradiction;
    destruct Hin as [-> | []];
    match goal with
    | E : get_hex_area rows = _ |- _ =>
        rewrite (get_hex_area_few_rows rows Hfew) in E
    end;
    try discriminate.
  match goal with E : Raise _ = Raise _ |- _ => injection E as <- end.
  split; reflexivity.
Qed.

Lemma get_hexbins_by_cbsa_too_few_rows_witness :
  exists tr : list event,
    run (answering []) (get_hexbins_by_cbsa (Str "cbsa") (Str "out")) []
    = (Raised IndexError, tr) /\
    existsb writes tr = false.
Proof.
  destruct answering_no_rows_by_cbsa as (tr & Hrun & Hin).
  exists tr. split; [exact Hrun |].
  apply (get_hexbins_by_cbsa_too_few_rows _ _ _ _ _ [] Hrun Hin).
  cbn [length]. lia.
Defined.
